(** * Cosmetics Store API: a shallow embedding of [main.py]

    The service is a thin HTTP layer over one MongoDB collection,
    [cosmeticproduct].  The development follows the layering of the
    program:

    - Python values, dictionaries and truthiness;
    - the product schema ([schemas.CosmeticProduct]) and its two
      subclasses declared in [main.py];
    - the document store behind the module-level handle [db], with the
      driver calls the program makes on it;
    - the two adapter helpers imported from [database];
    - the handlers of [main.py], written in a state-and-exception monad;
    - the routes, that is what the framework answers to the HTTP caller.

    Conventions.  A handler is a function of the handle [db] that returns
    a value or raises, together with the handle afterwards.  The store
    holds product documents: every write path of the service stores a
    validated payload or one of the fixed samples, so a stored document
    is a product under its [_id], and the field name passed to [distinct]
    is rendered as the record projection of that name.  A character of a
    modelled string stands for one character of the Python string. *)

From Stdlib Require Import Ascii QArith OrdersEx.
From stdpp Require Import gmap strings list fin_maps sorting.

(** ** Python values *)

(** The values that occur in request and response bodies.  Numbers are
    never computed with, only stored, compared and returned; a float is
    represented by the rational it denotes.  The only lists are lists of
    strings (tags, collection names, field names). *)
Inductive value :=
| VNone
| VBool (b : bool)
| VInt (n : Z)
| VFloat (q : Q)
| VStr (s : string)
| VList (l : list string).

#[global] Instance Q_eq_dec : EqDecision Q.
Proof. solve_decision. Defined.

#[global] Instance value_eq_dec : EqDecision value.
Proof. solve_decision. Defined.

(** A Python [dict] with string keys. *)
Abbreviation dict := (gmap string value).

(** Truthiness of an [Optional[str]]: [None] and the empty string are
    falsy, every other string is truthy.  This is the test behind
    [if category], [if c] and [if os.getenv(...)]. *)
Definition truthy (x : option string) : bool :=
  match x with
  | None => false
  | Some "" => false
  | Some _ => true
  end.

(** [s[:n]] on a string. *)
Definition slice_to (n : nat) (s : string) : string := String.substring 0 n s.

(** ** The product schema *)

Module Schema.

(** Modelled from the spec: [schemas.py] is not part of the sources; the
    fields, their types and their optionality are those of section 3 of
    the specification.  Neither the sign of [price] nor the range of
    [rating] is enforced. *)
Record CosmeticProduct := {
  title : string;
  description : option string;
  price : Q;
  category : option string;
  in_stock : bool;
  image_url : option string;
  shopify_url : option string;
  brand : option string;
  tags : option (list string);
  rating : option Q
}.

(** [CosmeticProduct.model_fields.keys()], in declaration order. *)
Definition model_fields : list string :=
  ["title"; "description"; "price"; "category"; "in_stock";
   "image_url"; "shopify_url"; "brand"; "tags"; "rating"].

Definition opt_value {A} (f : A → value) (x : option A) : value :=
  match x with
  | Some a => f a
  | None => VNone
  end.

(** [p.model_dump()]: the product as a dictionary, one entry per field. *)
Definition model_dump (p : CosmeticProduct) : dict :=
  <["title" := VStr (title p)]>
  (<["description" := opt_value VStr (description p)]>
  (<["price" := VFloat (price p)]>
  (<["category" := opt_value VStr (category p)]>
  (<["in_stock" := VBool (in_stock p)]>
  (<["image_url" := opt_value VStr (image_url p)]>
  (<["shopify_url" := opt_value VStr (shopify_url p)]>
  (<["brand" := opt_value VStr (brand p)]>
  (<["tags" := opt_value VList (tags p)]>
  (<["rating" := opt_value VFloat (rating p)]> ∅))))))))).

End Schema.

Export Schema.

(** [class CreateProductRequest(CosmeticProduct): pass] *)
Definition CreateProductRequest : Type := CosmeticProduct.

(** [class ProductResponse(CosmeticProduct): id: Optional[str] = None] *)
Record ProductResponse := {
  product : CosmeticProduct;
  id : option string
}.

(** ** The document store *)

(** The database and its driver are outside the program; what follows
    is the model of them the handlers run against: collections of
    documents in insertion order, identifiers generated at insertion,
    and a store that either works or faults on every access. *)

(** The identifier the store gives a document.  [str] of an identifier is
    its 24 lower-case hexadecimal digits. *)
Definition ObjectId : Type := N.

Definition hex_digit (n : N) : ascii :=
  nth (N.to_nat n)
    ["0"; "1"; "2"; "3"; "4"; "5"; "6"; "7";
     "8"; "9"; "a"; "b"; "c"; "d"; "e"; "f"]%char "0"%char.

Fixpoint hex (digits : nat) (n : N) (acc : string) : string :=
  match digits with
  | O => acc
  | S k => hex k (n / 16)%N (String (hex_digit (n mod 16)%N) acc)
  end.

Definition str (o : ObjectId) : string := hex 24 o "".

(** A stored document: the product's fields under the store's [_id]. *)
Record document := {
  _id : ObjectId;
  data : CosmeticProduct
}.

(** The database behind the handle [db].  [fault], when set, is the text
    of the exception every driver call raises (network failure and the
    like); [next_id] is the identifier the next insert will generate. *)
Record Database := {
  name : option string;
  fault : option string;
  next_id : ObjectId;
  collections : gmap string (list document)
}.

(** The module-level [db]: [None] when the environment configures no
    database. *)
Definition Handle : Type := option Database.

(** [os.environ], as far as the program reads it. *)
Record Environ := {
  DATABASE_URL : option string;
  DATABASE_NAME : option string
}.

Definition getenv (v : Environ → option string) (env : Environ) : option string := v env.

(** *** Driver calls *)

(** A driver call either returns or raises an exception [e]; [Raises msg]
    records [str(e)]. *)
Inductive outcome (A : Type) :=
| Returns (a : A)
| Raises (msg : string).
Arguments Returns {A} a.
Arguments Raises {A} msg.

Definition driver {A} (d : Database) (a : A) : outcome A :=
  match fault d with
  | Some msg => Raises msg
  | None => Returns a
  end.

(** [db[collection_name]] *)
Definition collection (d : Database) (collection_name : string) : list document :=
  default [] (collections d !! collection_name).

(** A filter maps field names to the value the field must have. *)
Definition matches (filter_dict : dict) (doc : document) : bool :=
  bool_decide (map_Forall (λ k v, model_dump (data doc) !! k = Some v) filter_dict).

(** [db.list_collection_names()] *)
Definition list_collection_names (d : Database) : outcome (list string) :=
  driver d (map fst (map_to_list (collections d))).

(** [db[c].find(filter_dict)], documents in insertion order. *)
Definition find (d : Database) (c : string) (filter_dict : dict) : outcome (list document) :=
  driver d (filter (λ doc, matches filter_dict doc = true) (collection d c)).

(** [db[c].count_documents(filter_dict)] *)
Definition count_documents (d : Database) (c : string) (filter_dict : dict) : outcome nat :=
  driver d (length (filter (λ doc, matches filter_dict doc = true) (collection d c))).

(** [db[c].distinct(field)]: the values of the field, each one once. *)
Definition distinct {A} `{EqDecision A} (d : Database) (c : string)
    (field : CosmeticProduct → A) : outcome (list A) :=
  driver d (remove_dups (map (λ doc, field (data doc)) (collection d c))).

(** The database once [p] is stored in collection [c]: the document is
    appended under the next identifier. *)
Definition store (d : Database) (c : string) (p : CosmeticProduct) : Database :=
  {| name := name d;
     fault := fault d;
     next_id := N.succ (next_id d);
     collections :=
       <[c := collection d c ++ [{| _id := next_id d; data := p |}]]> (collections d) |}.

(** [db[c].insert_one(data)]: stores the document and returns the
    identifier generated for it. *)
Definition insert_one (d : Database) (c : string) (p : CosmeticProduct)
    : outcome (ObjectId * Database) :=
  driver d (next_id d, store d c p).

(** ** State and exceptions *)

Inductive result (E A : Type) :=
| Ok (a : A)
| Raise (e : E).
Arguments Ok {E A} a.
Arguments Raise {E A} e.

(** A computation over a mutable state [S] that returns an [A] or raises
    an [E].  What was written to the state before a [raise] stays
    written, as with Python objects mutated in place. *)
Definition ST (S E A : Type) : Type := S → result E A * S.

Definition ret {S E A} (a : A) : ST S E A := λ s, (Ok a, s).

Definition raise {S E A} (e : E) : ST S E A := λ s, (Raise e, s).

Definition bind {S E A B} (m : ST S E A) (k : A → ST S E B) : ST S E B :=
  λ s, match m s with
       | (Ok a, s') => k a s'
       | (Raise e, s') => (Raise e, s')
       end.

(** [try: body / except Exception as e: handler] *)
Definition try_except {S E E' A} (body : ST S E A) (handler : E → ST S E' A) : ST S E' A :=
  λ s, match body s with
       | (Ok a, s') => (Ok a, s')
       | (Raise e, s') => handler e s'
       end.

(** The value or exception of a driver call, inside a computation. *)
Definition lift {S A} (o : outcome A) : ST S string A :=
  λ s, match o with
       | Returns a => (Ok a, s)
       | Raises msg => (Raise msg, s)
       end.

(** With these instances [x ← m; k] binds and [m;; k] sequences. *)
#[global] Instance ST_ret {S E} : MRet (ST S E) := λ A, ret.
#[global] Instance ST_bind {S E} : MBind (ST S E) := λ A B k m, bind m k.

(** [for x in l: body(x)] *)
Fixpoint for_each {S E A} (l : list A) (body : A → ST S E unit) : ST S E unit :=
  match l with
  | [] => ret tt
  | x :: l' => body x;; for_each l' body
  end.

(** What a handler can raise.  [HTTPException] is the framework's; the
    other three leave the handler uncaught. *)
Inductive exn :=
| HTTPException (status_code : nat) (detail : string)
| PyMongoError (msg : string)
| StoreUnavailable
| StoreError (diagnostic : string).

(** A handler runs against the module-level handle [db]. *)
Abbreviation M := (ST Handle exn).

(** A driver call outside any [try]: its exception propagates as it is. *)
Definition uncaught {A} (o : outcome A) : M A :=
  try_except (lift o) (λ msg, raise (PyMongoError msg)).

(** ** The adapter: [database.create_document] and [database.get_documents] *)

Module database.

(** Modelled from the spec: the length to which the adapter truncates
    the diagnostic of a store error.  The specification says the
    diagnostic is truncated and names no length; 50 is the length of the
    one truncation [main.py] performs. *)
Definition diagnostic_limit : nat := 50.

(** Modelled from the spec: [database.py] is not part of the sources.
    Section 4.1, [insert]: writes one document made of the record's
    fields and returns the generated identifier as a string; an
    unavailable store is reported as such, and a store-level fault as a
    store error carrying a truncated diagnostic. *)
Definition create_document (collection_name : string) (data : CosmeticProduct) : M string :=
  λ db, match db with
        | None => (Raise StoreUnavailable, db)
        | Some d =>
            match insert_one d collection_name data with
            | Returns (o, d') => (Ok (str o), Some d')
            | Raises msg => (Raise (StoreError (slice_to diagnostic_limit msg)), db)
            end
        end.

(** Modelled from the spec: [database.py] is not part of the sources.
    Section 4.1, [find]: the documents matching every entry of the
    filter, in insertion order; the empty filter matches all of them.
    Each document comes with its generated identifier, under [_id] as
    [list_products] expects it. *)
Definition get_documents (collection_name : string) (filter_dict : dict) : M (list document) :=
  λ db, match db with
        | None => (Raise StoreUnavailable, db)
        | Some d =>
            match find d collection_name filter_dict with
            | Returns items => (Ok items, db)
            | Raises msg => (Raise (StoreError (slice_to diagnostic_limit msg)), db)
            end
        end.

End database.

Export database.

(** ** The handlers of [main.py] *)

(** [if db is None: raise HTTPException(status_code=500, detail="Database not configured")] *)
Definition require_db : M Database :=
  λ db, match db with
        | None => (Raise (HTTPException 500 "Database not configured"), db)
        | Some d => (Ok d, db)
        end.

Definition read_root : M dict :=
  ret {[ "message" := VStr "Cosmetics Store Backend is running" ]}.

Definition hello : M dict :=
  ret {[ "message" := VStr "Hello from the backend API!" ]}.

(** [response[key] = v] *)
Definition set {E} (key : string) (v : value) : ST dict E unit :=
  λ response, (Ok tt, <[key := v]> response).

Definition test_database (env : Environ) : M dict :=
  λ db,
    let response : dict :=
      {[ "backend" := VStr "✅ Running";
         "database" := VStr "❌ Not Available";
         "database_url" := VNone;
         "database_name" := VNone;
         "connection_status" := VStr "Not Connected";
         "collections" := VList [] ]} in
    let block : ST dict exn unit :=
      try_except
        (match db with
         | Some d =>
             set "database" (VStr "✅ Available");;
             set "database_url" (VStr "✅ Configured");;
             set "database_name" (VStr (default "✅ Connected" (name d)));;
             set "connection_status" (VStr "Connected");;
             try_except
               (collections ← lift (list_collection_names d);
                set "collections" (VList (take 10 collections));;
                set "database" (VStr "✅ Connected & Working"))
               (λ e, set "database" (VStr ("⚠️  Connected but Error: " +:+ slice_to 50 e)))
         | None =>
             set "database" (VStr "⚠️  Available but not initialized")
         end)
        (λ e : string, set "database" (VStr ("❌ Error: " +:+ slice_to 50 e)));;
      set "database_url"
        (VStr (if truthy (getenv DATABASE_URL env) then "✅ Set" else "❌ Not Set"));;
      set "database_name"
        (VStr (if truthy (getenv DATABASE_NAME env) then "✅ Set" else "❌ Not Set")) in
    match block response with
    | (Ok _, response) => (Ok response, db)
    | (Raise e, _) => (Raise e, db)
    end.

Definition get_schema : M (gmap string dict) :=
  ret {[ "cosmeticproduct" := {[ "fields" := VList model_fields ]} ]}.

(** [category] is [None] when the query has no [category] parameter and
    the empty string for [?category=]. *)
Definition list_products (category : option string) : M (list ProductResponse) :=
  require_db;;
  let filter_dict : dict :=
    if truthy category then {[ "category" := opt_value VStr category ]} else ∅ in
  items ← get_documents "cosmeticproduct" filter_dict;
  ret (map (λ it, {| product := data it; id := Some (str (_id it)) |}) items).

Definition create_product (payload : CreateProductRequest) : M dict :=
  require_db;;
  new_id ← create_document "cosmeticproduct" payload;
  ret {[ "id" := VStr new_id ]}.

(** Python orders strings lexicographically, character by character. *)
Definition str_le (a b : string) : Prop := String_as_OT.compare a b ≠ Gt.

#[global] Instance str_le_dec : RelDecision str_le.
Proof. intros a b. unfold str_le. apply _. Defined.

(** [cats.sort()] *)
Definition sort (cats : list string) : list string := merge_sort str_le cats.

Definition list_categories : M (list string) :=
  d ← require_db;
  try_except
    (cats ← lift (distinct d "cosmeticproduct" category);
     let cats := filter (λ c, truthy c = true) cats in
     ret (sort (omap (λ c, c) cats)))
    (λ e, raise (HTTPException 500 e)).

(** The four sample records of [seed_sample_products]. *)
Definition lipstick : CosmeticProduct :=
  {| title := "Velvet Matte Lipstick";
     description := Some "Rich pigment, long-lasting matte finish";
     price := 14.99%Q;
     category := Some "makeup";
     in_stock := true;
     image_url := Some "https://images.unsplash.com/photo-1585218336020-3a9c1a66d0d8?q=80&w=1200&auto=format&fit=crop";
     shopify_url := None;
     brand := Some "GlowLab";
     tags := Some ["lipstick"; "matte"];
     rating := Some 4.6%Q |}.

Definition serum : CosmeticProduct :=
  {| title := "Hydrating Face Serum";
     description := Some "Hyaluronic acid + Vitamin B5 for deep hydration";
     price := 24.5%Q;
     category := Some "skincare";
     in_stock := true;
     image_url := Some "https://images.unsplash.com/photo-1611930022073-b7a4ba5fcccd?q=80&w=1200&auto=format&fit=crop";
     shopify_url := None;
     brand := Some "PureSkin";
     tags := Some ["serum"; "hydrating"];
     rating := Some 4.8%Q |}.

Definition hair_oil : CosmeticProduct :=
  {| title := "Nourishing Hair Oil";
     description := Some "Lightweight oil for shine and frizz control";
     price := 18.0%Q;
     category := Some "haircare";
     in_stock := true;
     image_url := Some "https://images.unsplash.com/photo-1604654894610-df63bc536371?q=80&w=1200&auto=format&fit=crop";
     shopify_url := None;
     brand := Some "SilkRoot";
     tags := Some ["hair"; "oil"];
     rating := Some 4.5%Q |}.

Definition sunscreen : CosmeticProduct :=
  {| title := "Mineral Sunscreen SPF 50";
     description := Some "Broad spectrum, reef-safe mineral sunscreen";
     price := 19.99%Q;
     category := Some "skincare";
     in_stock := true;
     image_url := Some "https://images.unsplash.com/photo-1610384104073-96d02d53c16f?q=80&w=1200&auto=format&fit=crop";
     shopify_url := None;
     brand := Some "SunVeil";
     tags := Some ["sunscreen"; "spf50"];
     rating := Some 4.7%Q |}.

Definition samples : list CosmeticProduct := [lipstick; serum; hair_oil; sunscreen].

Definition seed_sample_products : M dict :=
  d ← require_db;
  count ← uncaught (count_documents d "cosmeticproduct" ∅);
  if decide (0 < count) then
    ret {[ "status" := VStr "ok";
           "message" := VStr "Products already exist";
           "count" := VInt (Z.of_nat count) ]}
  else
    for_each samples (λ s, create_document "cosmeticproduct" s;; ret tt);;
    ret {[ "status" := VStr "ok";
           "inserted" := VInt (Z.of_nat (length samples)) ]}.

(** ** The routes *)

(** What the HTTP caller receives: the endpoint's value under the route's
    status code; status and detail of an [HTTPException]; or, for any
    other exception, the framework's bare 500. *)
Inductive Response (A : Type) :=
| JSONResponse (status_code : nat) (content : A)
| ErrorResponse (status_code : nat) (detail : string)
| InternalServerError.
Arguments JSONResponse {A} status_code content.
Arguments ErrorResponse {A} status_code detail.
Arguments InternalServerError {A}.

Definition route {A} (status_code : nat) (endpoint : M A) (db : Handle) : Response A * Handle :=
  match endpoint db with
  | (Ok a, db') => (JSONResponse status_code a, db')
  | (Raise (HTTPException code detail), db') => (ErrorResponse code detail, db')
  | (Raise _, db') => (InternalServerError, db')
  end.

Module app.

(** [@app.get("/")] *)
Definition GET_root := route 200 read_root.

(** [@app.get("/api/hello")] *)
Definition GET_api_hello := route 200 hello.

(** [@app.get("/test")] *)
Definition GET_test (env : Environ) := route 200 (test_database env).

(** [@app.get("/schema")] *)
Definition GET_schema := route 200 get_schema.

(** [@app.get("/api/products", response_model=List[ProductResponse])] *)
Definition GET_api_products (category : option string) := route 200 (list_products category).

(** [@app.post("/api/products", status_code=201)] *)
Definition POST_api_products (payload : CreateProductRequest) := route 201 (create_product payload).

(** [@app.get("/api/categories", response_model=List[str])] *)
Definition GET_api_categories := route 200 list_categories.

(** [@app.post("/api/seed")] *)
Definition POST_api_seed := route 200 seed_sample_products.

End app.

(** ** Vocabulary of the statements *)

(** Strictly before, in the order of [sort]. *)
Definition str_lt (a b : string) : Prop := String_as_OT.compare a b = Lt.

(** The response element a stored document gives rise to. *)
Definition response_of (doc : document) : ProductResponse :=
  {| product := data doc; id := Some (str (_id doc)) |}.

(** The documents a listing is specified to return: all of them without
    a category, those of category [X] with [category=X]. *)
Definition selected (category : option string) (docs : list document) : list document :=
  match category with
  | None => docs
  | Some X => filter (λ doc, Schema.category (data doc) = Some X) docs
  end.

(** The database once the products [ps] are stored in [c], in order. *)
Definition store_all (d : Database) (c : string) (ps : list CosmeticProduct) : Database :=
  foldl (λ d' p, store d' c p) d ps.

(** The payload [{"title": "Test", "price": 9.99, "category": "makeup"}],
    the other fields at their defaults. *)
Definition test_product : CreateProductRequest :=
  {| title := "Test";
     description := None;
     price := 9.99%Q;
     category := Some "makeup";
     in_stock := true;
     image_url := None;
     shopify_url := None;
     brand := None;
     tags := None;
     rating := None |}.

(** A database with no fault and no collection yet. *)
Definition empty_db : Database :=
  {| name := Some "cosmetics"; fault := None; next_id := 0%N; collections := ∅ |}.

(** A store holding a single product, of category "makeup". *)
Definition one_lipstick_db : Database := store empty_db "cosmeticproduct" lipstick.

(** A store holding three products, of categories "skincare", "makeup"
    and "skincare". *)
Definition three_products_db : Database :=
  store (store (store empty_db "cosmeticproduct" serum) "cosmeticproduct" lipstick)
    "cosmeticproduct" sunscreen.

(** The text of a driver exception, 90 characters long. *)
Definition connection_refused : string :=
  "localhost:27017: [Errno 111] Connection refused, Timeout: 30s, Topology Description: <...>".

(** A store on which every driver call raises [connection_refused]. *)
Definition faulting_db : Database :=
  {| name := Some "cosmetics";
     fault := Some connection_refused;
     next_id := 0%N;
     collections := ∅ |}.

(** The status line of a response; the framework's bare error is a 500. *)
Definition status_of {A} (r : Response A) : nat :=
  match r with
  | JSONResponse status_code _ => status_code
  | ErrorResponse status_code _ => status_code
  | InternalServerError => 500
  end.

(** The category of each document, in stored order. *)
Definition categories_of (docs : list document) : list (option string) :=
  map (λ doc, category (data doc)) docs.

(** What [list_categories] makes of a collection: the distinct
    categories, the falsy ones dropped, sorted. *)
Definition kept_categories (docs : list document) : list string :=
  sort (omap (λ c, c) (filter (λ c, truthy c = true) (remove_dups (categories_of docs)))).

(** A store holding two products, of categories "makeup" and "skincare". *)
Definition two_products_db : Database :=
  store (store empty_db "cosmeticproduct" lipstick) "cosmeticproduct" sunscreen.

(** A working store with a second collection beside the products. *)
Definition shop_with_orders_db : Database :=
  store (store empty_db "orders" hair_oil) "cosmeticproduct" lipstick.

(** The object [test_database] returns, by the three entries that depend
    on the state of the store; the two about the environment follow the
    truthiness of the variables. *)
Definition test_report (env : Environ) (database connection_status : string)
    (collections : list string) : dict :=
  {[ "backend" := VStr "✅ Running";
     "database" := VStr database;
     "database_url" := VStr (if truthy (DATABASE_URL env) then "✅ Set" else "❌ Not Set");
     "database_name" := VStr (if truthy (DATABASE_NAME env) then "✅ Set" else "❌ Not Set");
     "connection_status" := VStr connection_status;
     "collections" := VList collections ]}.

(** * Properties *)

(** Unfolds the monadic plumbing of a handler applied to a handle. *)
Ltac run :=
  unfold route, mbind, ST_bind, bind, require_db, uncaught, try_except, lift, ret, raise.

(** ** Identifiers *)

Lemma hex_length (digits : nat) (n : N) (acc : string) :
  String.length (hex digits n acc) = digits + String.length acc.
Proof.
  revert n acc. induction digits as [|k IH]; intros n acc; simpl; [done|].
  rewrite IH. simpl. lia.
Qed.

Lemma str_length (o : ObjectId) : String.length (str o) = 24.
Proof. unfold str. by rewrite hex_length. Qed.

Lemma str_nonempty (o : ObjectId) : str o ≠ "".
Proof. intros H. pose proof (str_length o) as L. rewrite H in L. discriminate. Qed.

(** ** Slices *)

Lemma slice_to_length (n : nat) (s : string) : String.length (slice_to n s) ≤ n.
Proof.
  unfold slice_to. revert s. induction n as [|n IH]; intros s.
  - destruct s; simpl; lia.
  - destruct s as [|a s]; simpl; [lia|]. specialize (IH s). lia.
Qed.

(** ** Filters *)

Lemma matches_empty (doc : document) : matches ∅ doc = true.
Proof. unfold matches. apply bool_decide_eq_true. apply map_Forall_empty. Qed.

Lemma model_dump_category (p : CosmeticProduct) :
  model_dump p !! "category" = Some (opt_value VStr (category p)).
Proof. reflexivity. Qed.

Lemma model_dump_id (p : CosmeticProduct) : model_dump p !! "id" = None.
Proof. reflexivity. Qed.

Lemma matches_category (X : string) (doc : document) :
  matches {[ "category" := VStr X ]} doc = true ↔ category (data doc) = Some X.
Proof.
  unfold matches. rewrite bool_decide_eq_true, map_Forall_singleton, model_dump_category.
  destruct (category (data doc)); simpl; split; intros H; congruence.
Qed.

Lemma filter_matches_empty (docs : list document) :
  filter (λ doc, matches ∅ doc = true) docs = docs.
Proof.
  induction docs as [|doc docs IH]; [done|].
  rewrite filter_cons_True by apply matches_empty. by rewrite IH.
Qed.

Lemma filter_matches_category (X : string) (docs : list document) :
  filter (λ doc, matches {[ "category" := VStr X ]} doc = true) docs
  = filter (λ doc, category (data doc) = Some X) docs.
Proof. apply list_filter_iff. intros doc. apply matches_category. Qed.

Lemma truthy_Some (c : string) : truthy (Some c) = true ↔ c ≠ "".
Proof. destruct c; simpl; split; intros; congruence. Qed.

(** ** Storing *)

Lemma store_fault (d : Database) (c : string) (p : CosmeticProduct) :
  fault (store d c p) = fault d.
Proof. reflexivity. Qed.

Lemma store_collection (d : Database) (c : string) (p : CosmeticProduct) :
  collection (store d c p) c = collection d c ++ [{| _id := next_id d; data := p |}].
Proof. unfold collection, store. simpl. by rewrite lookup_insert_eq. Qed.

Lemma store_all_fault (c : string) (ps : list CosmeticProduct) (d : Database) :
  fault (store_all d c ps) = fault d.
Proof. revert d. induction ps as [|p ps IH]; intros d; [done|]. simpl. by rewrite IH. Qed.

Lemma store_all_data (c : string) (ps : list CosmeticProduct) (d : Database) :
  map data (collection (store_all d c ps) c) = map data (collection d c) ++ ps.
Proof.
  revert d. induction ps as [|p ps IH]; intros d; simpl.
  - by rewrite app_nil_r.
  - rewrite IH, store_collection, map_app. simpl. by rewrite <- app_assoc.
Qed.

(** ** The order of [sort] *)

Lemma str_le_cases (a b : string) : str_le a b ↔ a = b ∨ str_lt a b.
Proof.
  unfold str_le, str_lt. split.
  - intros H. destruct (String_as_OT.compare_spec a b) as [Heq|Hlt|Hgt]; [by left | by right | done].
  - intros [->|H]; [|by rewrite H].
    destruct (String_as_OT.compare_spec b b) as [_|_|Hgt]; [done | done |].
    by apply (StrictOrder_Irreflexive (R := String_as_OT.lt)) in Hgt.
Qed.

#[global] Instance str_le_total : Total str_le.
Proof.
  intros a b. destruct (String_as_OT.compare_spec a b) as [Heq|Hlt|Hgt].
  - left. apply str_le_cases. by left.
  - left. apply str_le_cases. by right.
  - right. apply str_le_cases. by right.
Qed.

#[global] Instance str_le_trans : Transitive str_le.
Proof.
  intros a b c [->|Hab]%str_le_cases [->|Hbc]%str_le_cases; apply str_le_cases; auto.
  right. exact (StrictOrder_Transitive (R := String_as_OT.lt) a b c Hab Hbc).
Qed.

Lemma sort_sorted (cats : list string) : StronglySorted str_le (sort cats).
Proof. apply StronglySorted_merge_sort; apply _. Qed.

Lemma sort_elem_of (cats : list string) (c : string) : c ∈ sort cats ↔ c ∈ cats.
Proof. unfold sort. by rewrite merge_sort_Permutation. Qed.

Lemma sort_NoDup (cats : list string) : NoDup cats → NoDup (sort cats).
Proof. unfold sort. by rewrite merge_sort_Permutation. Qed.

(** Sorted and free of duplicates is strictly ascending. *)
Lemma sorted_NoDup_strict (l : list string) :
  StronglySorted str_le l → NoDup l → StronglySorted str_lt l.
Proof.
  induction 1 as [|a l Hs IH Hall]; intros Hnd; [constructor|].
  apply NoDup_cons in Hnd as [Ha Hnd]. constructor; [by apply IH|].
  apply Forall_forall. intros b Hb.
  rewrite Forall_forall in Hall. specialize (Hall b Hb).
  apply str_le_cases in Hall as [->|Hlt]; [|done].
  exfalso. apply Ha. by apply list_elem_of_In.
Qed.

Lemma omap_Some_NoDup {A} (l : list (option A)) : NoDup l → NoDup (omap (λ c, c) l).
Proof.
  induction 1 as [|o l Ho Hnd IH]; [constructor|].
  destruct o as [a|]; simpl; [|done].
  constructor; [|done].
  rewrite list_elem_of_omap. intros (x & Hx & ->). done.
Qed.

Example sort_by_code_point :
  sort ["b"; "abc"; "Z"; "ab"; "a"] = ["Z"; "a"; "ab"; "abc"; "b"].
Proof. reflexivity. Qed.

(** ** The handlers on a working store *)

Section working_store.

Context (d : Database) (Hd : fault d = None).

Lemma driver_returns {A} (a : A) : driver d a = Returns a.
Proof. unfold driver. by rewrite Hd. Qed.

Lemma get_documents_returns (c : string) (filter_dict : dict) :
  get_documents c filter_dict (Some d)
  = (Ok (filter (λ doc, matches filter_dict doc = true) (collection d c)), Some d).
Proof. unfold get_documents, find. by rewrite driver_returns. Qed.

Lemma create_document_returns (c : string) (p : CosmeticProduct) :
  create_document c p (Some d) = (Ok (str (next_id d)), Some (store d c p)).
Proof. unfold create_document, insert_one. by rewrite driver_returns. Qed.

Lemma count_documents_all (c : string) :
  count_documents d c ∅ = Returns (length (collection d c)).
Proof. unfold count_documents. by rewrite driver_returns, filter_matches_empty. Qed.

Lemma list_products_returns (category : option string) :
  list_products category (Some d)
  = (Ok (map response_of
           (if truthy category then selected category (collection d "cosmeticproduct")
            else collection d "cosmeticproduct")),
     Some d).
Proof.
  unfold list_products. run. rewrite get_documents_returns.
  destruct category as [[|a X]|]; simpl.
  - by rewrite filter_matches_empty.
  - by rewrite filter_matches_category.
  - by rewrite filter_matches_empty.
Qed.

Lemma route_list_products (category : option string) :
  app.GET_api_products category (Some d)
  = (JSONResponse 200
       (map response_of
          (if truthy category then selected category (collection d "cosmeticproduct")
           else collection d "cosmeticproduct")),
     Some d).
Proof. unfold app.GET_api_products, route. by rewrite list_products_returns. Qed.

Lemma route_create_product (payload : CreateProductRequest) :
  app.POST_api_products payload (Some d)
  = (JSONResponse 201 {[ "id" := VStr (str (next_id d)) ]},
     Some (store d "cosmeticproduct" payload)).
Proof.
  unfold app.POST_api_products, create_product. run. by rewrite create_document_returns.
Qed.

Lemma list_categories_returns :
  list_categories (Some d)
  = (Ok (sort (omap (λ c, c)
                 (filter (λ c, truthy c = true)
                    (remove_dups (map (λ doc, category (data doc))
                                    (collection d "cosmeticproduct")))))),
     Some d).
Proof. unfold list_categories, distinct. run. by rewrite driver_returns. Qed.

Lemma seed_when_stocked :
  0 < length (collection d "cosmeticproduct") →
  app.POST_api_seed (Some d)
  = (JSONResponse 200
       {[ "status" := VStr "ok";
          "message" := VStr "Products already exist";
          "count" := VInt (Z.of_nat (length (collection d "cosmeticproduct"))) ]},
     Some d).
Proof.
  intros Hn. unfold app.POST_api_seed, seed_sample_products. run.
  rewrite count_documents_all.
  destruct (decide (0 < length (collection d "cosmeticproduct"))); [done | lia].
Qed.

End working_store.

Lemma for_each_create_document (c : string) (ps : list CosmeticProduct) (d : Database) :
  fault d = None →
  for_each ps (λ s, create_document c s;; ret tt) (Some d) = (Ok tt, Some (store_all d c ps)).
Proof.
  revert d. induction ps as [|p ps IH]; intros d H; [done|].
  simpl. run. rewrite create_document_returns by done.
  simpl. by rewrite IH.
Qed.

Lemma seed_when_empty (d : Database) :
  fault d = None →
  length (collection d "cosmeticproduct") = 0 →
  app.POST_api_seed (Some d)
  = (JSONResponse 200 {[ "status" := VStr "ok"; "inserted" := VInt 4 ]},
     Some (store_all d "cosmeticproduct" samples)).
Proof.
  intros H Hn. unfold app.POST_api_seed, seed_sample_products. run.
  rewrite count_documents_all by done.
  destruct (decide (0 < length (collection d "cosmeticproduct"))); [lia|].
  change (for_each samples _ (Some d))
    with (for_each samples (λ s, create_document "cosmeticproduct" s;; ret tt) (Some d)).
  by rewrite for_each_create_document.
Qed.

(** ** The handlers on a faulting store *)

Section faulting_store.

Context (d : Database) (msg : string) (Hd : fault d = Some msg).

Lemma driver_raises {A} (a : A) : driver d a = Raises msg.
Proof. unfold driver. by rewrite Hd. Qed.

(** The adapter reports the fault as a store error, which neither
    product handler catches. *)
Lemma product_handlers_do_not_catch (category : option string) (payload : CreateProductRequest) :
  list_products category (Some d) = (Raise (StoreError (slice_to diagnostic_limit msg)), Some d)
  ∧ create_product payload (Some d) = (Raise (StoreError (slice_to diagnostic_limit msg)), Some d)
  ∧ app.GET_api_products category (Some d) = (InternalServerError, Some d)
  ∧ app.POST_api_products payload (Some d) = (InternalServerError, Some d).
Proof.
  unfold app.GET_api_products, app.POST_api_products, list_products, create_product,
    get_documents, create_document, find, insert_one.
  run. rewrite !driver_raises. done.
Qed.

End faulting_store.

(** ** Two scenarios *)

(** Seeding an empty store, then asking for the categories. *)
Example seed_then_categories :
  ∃ db : Handle,
    app.POST_api_seed (Some empty_db)
    = (JSONResponse 200 {[ "status" := VStr "ok"; "inserted" := VInt 4 ]}, db)
    ∧ app.GET_api_categories db = (JSONResponse 200 ["haircare"; "makeup"; "skincare"], db).
Proof. eexists. split; reflexivity. Qed.

(** Posting [{"title": "Test", "price": 9.99, "category": "makeup"}],
    then listing the category "makeup". *)
Example create_then_list_makeup :
  ∃ db : Handle,
    app.POST_api_products test_product (Some one_lipstick_db)
    = (JSONResponse 201 {[ "id" := VStr "000000000000000000000001" ]}, db)
    ∧ app.GET_api_products (Some "makeup") db
      = (JSONResponse 200
           [ {| product := lipstick; id := Some "000000000000000000000000" |};
             {| product := test_product; id := Some "000000000000000000000001" |} ],
         db).
Proof. eexists. split; reflexivity. Qed.

(** * The claims *)

(** ** Listing *)

(** C1, as stated, fails for the blank category: with one "makeup"
    product stored (under the store's first identifier),
    [GET /api/products?category=] returns that product, whereas no
    stored product has the empty string as its category. *)
Lemma list_products_blank_category_counterexample :
  app.GET_api_products (Some "") (Some one_lipstick_db)
  = (JSONResponse 200 [ {| product := lipstick; id := Some "000000000000000000000000" |} ],
     Some one_lipstick_db)
  ∧ selected (Some "") (collection one_lipstick_db "cosmeticproduct") = []
  ∧ app.GET_api_products (Some "") (Some one_lipstick_db)
    ≠ (JSONResponse 200
         (map response_of (selected (Some "") (collection one_lipstick_db "cosmeticproduct"))),
       Some one_lipstick_db).
Proof.
  assert (app.GET_api_products (Some "") (Some one_lipstick_db)
          = (JSONResponse 200 [ {| product := lipstick; id := Some "000000000000000000000000" |} ],
             Some one_lipstick_db)) as Hget by (by rewrite route_list_products).
  assert (selected (Some "") (collection one_lipstick_db "cosmeticproduct") = []) as Hsel
    by reflexivity.
  split; [exact Hget|]. split; [exact Hsel|].
  rewrite Hget, Hsel. simpl. intros H. inversion H.
Qed.

(** C1 (amended): on a working store, [GET /api/products] without a
    category returns one element per stored product, in stored order, and
    [GET /api/products?category=X] with a non-empty [X] returns exactly
    the stored products whose category is [X]. *)
Theorem list_products_selects (d : Database) (category : option string) :
  fault d = None →
  category ≠ Some "" →
  app.GET_api_products category (Some d)
  = (JSONResponse 200 (map response_of (selected category (collection d "cosmeticproduct"))),
     Some d).
Proof.
  intros Hd HX. rewrite route_list_products by done.
  destruct category as [[|a X]|]; simpl; done.
Qed.

Lemma list_products_selects_witness :
  fault three_products_db = None
  ∧ Some "skincare" ≠ Some ""
  ∧ app.GET_api_products (Some "skincare") (Some three_products_db)
    = (JSONResponse 200
         (map response_of
            (selected (Some "skincare") (collection three_products_db "cosmeticproduct"))),
       Some three_products_db).
Proof.
  split; [reflexivity|]. split; [discriminate|].
  apply (list_products_selects three_products_db (Some "skincare")); [reflexivity | discriminate].
Defined.

(** C9: a blank [category] parameter is treated as an absent one: the
    handler builds the empty filter for both, so on a working store
    [?category=] returns every stored product. *)
Theorem blank_category_is_no_filter :
  (∀ db : Handle, list_products (Some "") db = list_products None db)
  ∧ (∀ db : Handle, app.GET_api_products (Some "") db = app.GET_api_products None db)
  ∧ (∀ d : Database,
       fault d = None →
       app.GET_api_products (Some "") (Some d)
       = (JSONResponse 200 (map response_of (collection d "cosmeticproduct")), Some d)).
Proof.
  split; [reflexivity|]. split; [reflexivity|].
  intros d Hd. by rewrite route_list_products.
Qed.

Lemma blank_category_is_no_filter_witness :
  fault three_products_db = None
  ∧ app.GET_api_products (Some "") (Some three_products_db)
    = (JSONResponse 200 (map response_of (collection three_products_db "cosmeticproduct")),
       Some three_products_db).
Proof.
  split; [reflexivity|].
  apply (proj2 (proj2 blank_category_is_no_filter) three_products_db). reflexivity.
Defined.

(** C7: on a working store, every record [GET /api/products] returns
    carries an [id] that is the string form of a stored document's
    identifier and is not empty, whereas a creation payload has no [id]
    field: [id] is neither among the fields of the request model nor in
    its dump. *)
Theorem listed_products_have_id (d : Database) (category : option string) :
  fault d = None →
  (∃ results : list ProductResponse,
     app.GET_api_products category (Some d) = (JSONResponse 200 results, Some d)
     ∧ (∀ r, r ∈ results →
          ∃ doc s, doc ∈ (collection d "cosmeticproduct")
                   ∧ product r = data doc
                   ∧ id r = Some s ∧ s = str (_id doc) ∧ s ≠ ""))
  ∧ ("id" ∉ model_fields)
  ∧ (∀ payload : CreateProductRequest, model_dump payload !! "id" = None).
Proof.
  intros H. split; [|split].
  - eexists. split; [by apply route_list_products|].
    intros r Hr. apply list_elem_of_fmap in Hr as (doc & -> & Hdoc).
    exists doc, (str (_id doc)). repeat split; [|apply str_nonempty].
    destruct (truthy category); [|done].
    destruct category as [X|]; [|done].
    simpl in Hdoc. by apply list_elem_of_filter in Hdoc as [_ ?].
  - unfold model_fields. intros Hin.
    repeat (apply elem_of_cons in Hin as [Hin|Hin]; [discriminate|]).
    by apply elem_of_nil in Hin.
  - apply model_dump_id.
Qed.

Lemma listed_products_have_id_witness :
  fault one_lipstick_db = None
  ∧ ∃ results : list ProductResponse,
      app.GET_api_products None (Some one_lipstick_db)
      = (JSONResponse 200 results, Some one_lipstick_db)
      ∧ (∀ r, r ∈ results →
           ∃ doc s, doc ∈ (collection one_lipstick_db "cosmeticproduct")
                    ∧ product r = data doc
                    ∧ id r = Some s ∧ s = str (_id doc) ∧ s ≠ "").
Proof.
  split; [reflexivity|].
  apply (proj1 (listed_products_have_id one_lipstick_db None eq_refl)).
Defined.

(** ** Without a database *)

(** C5: when [db] is [None], listing, creating and seeding each answer
    HTTP 500 with the detail "Database not configured", while [/] and
    [/api/hello] still answer their message. *)
Theorem unavailable_store_responses (category : option string) (payload : CreateProductRequest) :
  app.GET_api_products category None = (ErrorResponse 500 "Database not configured", None)
  ∧ app.POST_api_products payload None = (ErrorResponse 500 "Database not configured", None)
  ∧ app.POST_api_seed None = (ErrorResponse 500 "Database not configured", None)
  ∧ app.GET_root None
    = (JSONResponse 200 {[ "message" := VStr "Cosmetics Store Backend is running" ]}, None)
  ∧ app.GET_api_hello None
    = (JSONResponse 200 {[ "message" := VStr "Hello from the backend API!" ]}, None).
Proof. repeat split. Qed.

(** ** Creating *)

(** C6: on a working store, [POST /api/products] answers 201 with the
    body [{id: s}] and nothing else, [s] being the string form, 24
    characters long, of the identifier under which the store has filed
    the new document. *)
Theorem create_product_response (d : Database) (payload : CreateProductRequest) :
  fault d = None →
  ∃ (o : ObjectId) (d' : Database),
    app.POST_api_products payload (Some d)
    = (JSONResponse 201 {[ "id" := VStr (str o) ]}, Some d')
    ∧ String.length (str o) = 24
    ∧ collection d' "cosmeticproduct"
      = collection d "cosmeticproduct" ++ [ {| _id := o; data := payload |} ].
Proof.
  intros H. exists (next_id d), (store d "cosmeticproduct" payload).
  split; [by apply route_create_product|].
  split; [apply str_length | apply store_collection].
Qed.

Lemma create_product_response_witness :
  fault empty_db = None
  ∧ ∃ (o : ObjectId) (d' : Database),
      app.POST_api_products lipstick (Some empty_db)
      = (JSONResponse 201 {[ "id" := VStr (str o) ]}, Some d')
      ∧ String.length (str o) = 24
      ∧ collection d' "cosmeticproduct"
        = collection empty_db "cosmeticproduct" ++ [ {| _id := o; data := lipstick |} ].
Proof.
  split; [reflexivity|]. apply (create_product_response empty_db lipstick). reflexivity.
Defined.

(** C3: on a working store, after [POST /api/products] has succeeded
    with a payload, [GET /api/products] returns a record whose product
    fields are the payload and whose [id] is the identifier the POST
    returned. *)
Theorem create_then_list (d : Database) (payload : CreateProductRequest) :
  fault d = None →
  ∃ (new_id : string) (d' : Database) (results : list ProductResponse),
    app.POST_api_products payload (Some d)
    = (JSONResponse 201 {[ "id" := VStr new_id ]}, Some d')
    ∧ app.GET_api_products None (Some d') = (JSONResponse 200 results, Some d')
    ∧ {| product := payload; id := Some new_id |} ∈ results.
Proof.
  intros H.
  exists (str (next_id d)), (store d "cosmeticproduct" payload).
  eexists. split; [by apply route_create_product|].
  split; [by apply route_list_products|].
  simpl. rewrite store_collection, map_app. apply elem_of_app. right.
  apply list_elem_of_singleton. reflexivity.
Qed.

Lemma create_then_list_witness :
  fault one_lipstick_db = None
  ∧ ∃ (new_id : string) (d' : Database) (results : list ProductResponse),
      app.POST_api_products serum (Some one_lipstick_db)
      = (JSONResponse 201 {[ "id" := VStr new_id ]}, Some d')
      ∧ app.GET_api_products None (Some d') = (JSONResponse 200 results, Some d')
      ∧ {| product := serum; id := Some new_id |} ∈ results.
Proof.
  split; [reflexivity|]. apply (create_then_list one_lipstick_db serum). reflexivity.
Defined.

(** ** Seeding *)

(** C2: on a working store, [POST /api/seed] on a collection that holds
    at least one document inserts nothing, leaves the store as it is and
    reports the existing count; on an empty collection it inserts the
    four sample records and reports [inserted: 4]; seeding again then
    reports [count: 4] and leaves the store as the first call left it. *)
Theorem seed_idempotent (d : Database) :
  fault d = None →
  (0 < length (collection d "cosmeticproduct") →
   app.POST_api_seed (Some d)
   = (JSONResponse 200
        {[ "status" := VStr "ok";
           "message" := VStr "Products already exist";
           "count" := VInt (Z.of_nat (length (collection d "cosmeticproduct"))) ]},
      Some d))
  ∧ (length (collection d "cosmeticproduct") = 0 →
     ∃ d' : Database,
       app.POST_api_seed (Some d)
       = (JSONResponse 200
            {[ "status" := VStr "ok";
               "inserted" := VInt (Z.of_nat (length samples)) ]},
          Some d')
       ∧ map data (collection d' "cosmeticproduct") = samples
       ∧ app.POST_api_seed (Some d')
         = (JSONResponse 200
              {[ "status" := VStr "ok";
                 "message" := VStr "Products already exist";
                 "count" := VInt (Z.of_nat (length samples)) ]},
            Some d')).
Proof.
  intros H. split; [by apply seed_when_stocked|].
  intros Hn. exists (store_all d "cosmeticproduct" samples).
  assert (map data (collection (store_all d "cosmeticproduct" samples) "cosmeticproduct")
          = samples) as Hdata.
  { rewrite store_all_data. apply length_zero_iff_nil in Hn. by rewrite Hn. }
  split; [by apply seed_when_empty|]. split; [done|].
  assert (length (collection (store_all d "cosmeticproduct" samples) "cosmeticproduct")
          = length samples) as Hlen.
  { by rewrite <- Hdata at 2; rewrite length_map. }
  rewrite seed_when_stocked.
  - by rewrite Hlen.
  - by rewrite store_all_fault.
  - rewrite Hlen. simpl. lia.
Qed.

Lemma seed_idempotent_witness :
  fault empty_db = None
  ∧ length (collection empty_db "cosmeticproduct") = 0
  ∧ ∃ d' : Database,
      app.POST_api_seed (Some empty_db)
      = (JSONResponse 200
           {[ "status" := VStr "ok";
              "inserted" := VInt (Z.of_nat (length samples)) ]},
         Some d')
      ∧ map data (collection d' "cosmeticproduct") = samples
      ∧ app.POST_api_seed (Some d')
        = (JSONResponse 200
             {[ "status" := VStr "ok";
                "message" := VStr "Products already exist";
                "count" := VInt (Z.of_nat (length samples)) ]},
           Some d').
Proof.
  split; [reflexivity|]. split; [reflexivity|].
  apply (proj2 (seed_idempotent empty_db eq_refl)). reflexivity.
Defined.

(** ** Categories *)

(** C4: on a working store, [GET /api/categories] returns a strictly
    ascending list (hence sorted and without duplicates) whose members
    are exactly the non-empty strings that are the category of some
    stored product; products whose categories are "skincare", "makeup",
    "skincare" give ["makeup", "skincare"]. *)
Theorem categories_sorted_distinct (d : Database) :
  fault d = None →
  ∃ cats : list string,
    app.GET_api_categories (Some d) = (JSONResponse 200 cats, Some d)
    ∧ StronglySorted str_lt cats
    ∧ NoDup cats
    ∧ (∀ c : string,
         c ∈ cats
         ↔ c ≠ "" ∧ ∃ doc, doc ∈ (collection d "cosmeticproduct") ∧ category (data doc) = Some c)
    ∧ (map (λ doc, category (data doc)) (collection d "cosmeticproduct")
       = [Some "skincare"; Some "makeup"; Some "skincare"] →
       cats = ["makeup"; "skincare"]).
Proof.
  intros H. eexists. split.
  { unfold app.GET_api_categories, route. by rewrite list_categories_returns. }
  assert (NoDup (sort (omap (λ c, c)
                         (filter (λ c, truthy c = true)
                            (remove_dups (map (λ doc, category (data doc))
                                            (collection d "cosmeticproduct"))))))) as Hnd.
  { apply sort_NoDup, omap_Some_NoDup, NoDup_filter, NoDup_remove_dups. }
  split; [|split; [done|split]].
  - apply sorted_NoDup_strict; [apply sort_sorted | done].
  - intros c. rewrite sort_elem_of, list_elem_of_omap. split.
    + intros (x & Hx & ->). apply list_elem_of_filter in Hx as [Ht Hx].
      apply truthy_Some in Ht. split; [done|].
      apply elem_of_remove_dups, list_elem_of_fmap in Hx as (doc & Hc & Hdoc). eauto.
    + intros (Hc & doc & Hdoc & Hcat). exists (Some c). split; [|done].
      apply list_elem_of_filter. split; [by apply truthy_Some|].
      apply elem_of_remove_dups, list_elem_of_fmap. eauto.
  - intros ->. reflexivity.
Qed.

Lemma categories_sorted_distinct_witness :
  fault three_products_db = None
  ∧ map (λ doc, category (data doc)) (collection three_products_db "cosmeticproduct")
    = [Some "skincare"; Some "makeup"; Some "skincare"]
  ∧ ∃ cats : list string,
      app.GET_api_categories (Some three_products_db) = (JSONResponse 200 cats, Some three_products_db)
      ∧ StronglySorted str_lt cats
      ∧ NoDup cats
      ∧ (∀ c : string,
           c ∈ cats
           ↔ c ≠ "" ∧ ∃ doc, doc ∈ (collection three_products_db "cosmeticproduct")
                              ∧ category (data doc) = Some c)
      ∧ (map (λ doc, category (data doc)) (collection three_products_db "cosmeticproduct")
         = [Some "skincare"; Some "makeup"; Some "skincare"] →
         cats = ["makeup"; "skincare"]).
Proof.
  split; [reflexivity|]. split; [reflexivity|].
  apply (categories_sorted_distinct three_products_db). reflexivity.
Defined.

(** ** Store faults *)

(** C8, as stated, fails: when the driver raises inside
    [GET /api/categories], the detail of the 500 is the text of the
    exception itself, all 90 characters of it, and not its first 50. *)
Lemma list_categories_fault_counterexample :
  fault faulting_db = Some connection_refused
  ∧ app.GET_api_categories (Some faulting_db)
    = (ErrorResponse 500 connection_refused, Some faulting_db)
  ∧ String.length connection_refused = 90
  ∧ app.GET_api_categories (Some faulting_db)
    ≠ (ErrorResponse 500 (slice_to 50 connection_refused), Some faulting_db).
Proof.
  split; [reflexivity|]. split; [reflexivity|]. split; [reflexivity|].
  intros H. vm_compute in H. discriminate H.
Qed.

(** C8 (amended): a fault of the store inside [GET /api/categories] is
    caught by the handler and surfaces as a 500 whose detail is the full
    text of the exception, untruncated; a fault at the count of
    [POST /api/seed], which no handler catches, surfaces as the
    framework's bare 500. *)
Theorem store_fault_surfaces (d : Database) (msg : string) :
  fault d = Some msg →
  list_categories (Some d) = (Raise (HTTPException 500 msg), Some d)
  ∧ app.GET_api_categories (Some d) = (ErrorResponse 500 msg, Some d)
  ∧ seed_sample_products (Some d) = (Raise (PyMongoError msg), Some d)
  ∧ app.POST_api_seed (Some d) = (InternalServerError, Some d).
Proof.
  intros H.
  unfold app.GET_api_categories, app.POST_api_seed, list_categories, seed_sample_products,
    distinct, count_documents.
  run. rewrite !(driver_raises d msg H). done.
Qed.

Lemma store_fault_surfaces_witness :
  fault faulting_db = Some connection_refused
  ∧ list_categories (Some faulting_db)
    = (Raise (HTTPException 500 connection_refused), Some faulting_db)
  ∧ app.GET_api_categories (Some faulting_db)
    = (ErrorResponse 500 connection_refused, Some faulting_db)
  ∧ seed_sample_products (Some faulting_db)
    = (Raise (PyMongoError connection_refused), Some faulting_db)
  ∧ app.POST_api_seed (Some faulting_db) = (InternalServerError, Some faulting_db).
Proof.
  split; [reflexivity|].
  apply (store_fault_surfaces faulting_db connection_refused). reflexivity.
Defined.

(** ** The diagnostic endpoint *)

(** C10: [GET /test] always returns its diagnostic object and leaves the
    store alone, whether [db] is [None], works or faults; when the driver
    raises, the object's "database" entry is the fixed prefix followed by
    the first 50 characters of the exception text. *)
Theorem test_database_total (env : Environ) (db : Handle) :
  ∃ response : dict,
    test_database env db = (Ok response, db)
    ∧ app.GET_test env db = (JSONResponse 200 response, db)
    ∧ (∀ (d : Database) (msg : string),
         db = Some d → fault d = Some msg →
         ∃ diagnostic : string,
           response !! "database"
           = Some (VStr ("⚠️  Connected but Error: " +:+ diagnostic))
           ∧ diagnostic = slice_to 50 msg
           ∧ String.length diagnostic ≤ 50).
Proof.
  destruct db as [d|].
  - destruct (fault d) as [msg|] eqn:Hf.
    + eexists. split; [|split].
      * unfold test_database, list_collection_names. run.
        rewrite (driver_raises d msg Hf). reflexivity.
      * unfold app.GET_test, test_database, list_collection_names. run.
        rewrite (driver_raises d msg Hf). reflexivity.
      * intros d' msg' [= <-] Hmsg. rewrite Hf in Hmsg. injection Hmsg as <-.
        exists (slice_to 50 msg). split; [|split; [done | apply slice_to_length]].
        unfold set.
        destruct (truthy (getenv DATABASE_URL env)), (truthy (getenv DATABASE_NAME env));
          reflexivity.
    + eexists. split; [|split].
      * unfold test_database, list_collection_names. run.
        rewrite (driver_returns d Hf). reflexivity.
      * unfold app.GET_test, test_database, list_collection_names. run.
        rewrite (driver_returns d Hf). reflexivity.
      * intros d' msg' [= <-] Hmsg. congruence.
  - eexists. split; [reflexivity|]. split; [reflexivity|]. intros d msg [=].
Qed.

Lemma test_database_total_witness :
  ∃ response : dict,
    test_database {| DATABASE_URL := Some "mongodb://localhost:27017"; DATABASE_NAME := None |}
      (Some faulting_db)
    = (Ok response, Some faulting_db)
    ∧ response !! "database"
      = Some (VStr ("⚠️  Connected but Error: " +:+ slice_to 50 connection_refused)).
Proof.
  destruct (test_database_total
              {| DATABASE_URL := Some "mongodb://localhost:27017"; DATABASE_NAME := None |}
              (Some faulting_db)) as (response & Hrun & _ & Hdiag).
  exists response. split; [exact Hrun|].
  destruct (Hdiag faulting_db connection_refused eq_refl eq_refl) as (diagnostic & Hdb & -> & _).
  exact Hdb.
Defined.

(** * Further properties of the handlers *)

(** ** Auxiliary facts *)

Lemma store_collection_ne (d : Database) (c c' : string) (p : CosmeticProduct) :
  c ≠ c' → collection (store d c p) c' = collection d c'.
Proof. intros H. unfold collection, store. simpl. by rewrite lookup_insert_ne. Qed.

Lemma store_all_collection_ne (c c' : string) (ps : list CosmeticProduct) (d : Database) :
  c ≠ c' → collection (store_all d c ps) c' = collection d c'.
Proof.
  intros H. revert d. induction ps as [|p ps IH]; intros d; [done|].
  simpl. by rewrite IH, store_collection_ne.
Qed.

Lemma store_all_name (c : string) (ps : list CosmeticProduct) (d : Database) :
  name (store_all d c ps) = name d.
Proof. revert d. induction ps as [|p ps IH]; intros d; [done|]. simpl. by rewrite IH. Qed.

#[global] Instance str_le_antisymm : AntiSymm eq str_le.
Proof.
  intros a b [->|Hab]%str_le_cases [Heq|Hba]%str_le_cases; try done.
  exfalso. apply (StrictOrder_Irreflexive (R := String_as_OT.lt) a).
  exact (StrictOrder_Transitive (R := String_as_OT.lt) a b a Hab Hba).
Qed.

Lemma route_list_categories (d : Database) :
  fault d = None →
  app.GET_api_categories (Some d)
  = (JSONResponse 200 (kept_categories (collection d "cosmeticproduct")), Some d).
Proof.
  intros H. unfold app.GET_api_categories, route. by rewrite list_categories_returns.
Qed.

Lemma kept_categories_elem (docs : list document) (c : string) :
  c ∈ kept_categories docs ↔ c ≠ "" ∧ Some c ∈ categories_of docs.
Proof.
  unfold kept_categories. rewrite sort_elem_of, list_elem_of_omap. split.
  - intros (x & Hx & ->). apply list_elem_of_filter in Hx as [Ht Hx].
    apply truthy_Some in Ht. rewrite elem_of_remove_dups in Hx. done.
  - intros [Hc Hin]. exists (Some c). split; [|done].
    apply list_elem_of_filter. rewrite elem_of_remove_dups. split; [by apply truthy_Some | done].
Qed.

Lemma kept_categories_NoDup (docs : list document) : NoDup (kept_categories docs).
Proof. apply sort_NoDup, omap_Some_NoDup, NoDup_filter, NoDup_remove_dups. Qed.

Lemma kept_categories_sorted (docs : list document) :
  StronglySorted str_le (kept_categories docs).
Proof. apply sort_sorted. Qed.

Lemma kept_categories_ext (docs1 docs2 : list document) :
  (∀ c, c ≠ "" → Some c ∈ categories_of docs1 ↔ Some c ∈ categories_of docs2) →
  kept_categories docs1 = kept_categories docs2.
Proof.
  intros H. apply (StronglySorted_unique str_le); [apply kept_categories_sorted.. |].
  apply NoDup_Permutation; [apply kept_categories_NoDup.. |].
  intros c. rewrite !kept_categories_elem. split; intros [Hc Hin]; (split; [done|]); by apply H.
Qed.

Lemma categories_of_elem (docs : list document) (c : string) :
  Some c ∈ categories_of docs ↔ ∃ doc, doc ∈ docs ∧ category (data doc) = Some c.
Proof.
  unfold categories_of. rewrite list_elem_of_fmap. split.
  - intros (doc & Hc & Hdoc). eauto.
  - intros (doc & Hdoc & Hc). eauto.
Qed.

Lemma route_list_categories_fault (d : Database) (msg : string) :
  fault d = Some msg →
  app.GET_api_categories (Some d) = (ErrorResponse 500 msg, Some d).
Proof.
  intros H. unfold app.GET_api_categories, list_categories, distinct. run.
  by rewrite (driver_raises d msg H).
Qed.

Lemma route_seed_fault (d : Database) (msg : string) :
  fault d = Some msg →
  app.POST_api_seed (Some d) = (InternalServerError, Some d).
Proof.
  intros H. unfold app.POST_api_seed, seed_sample_products, count_documents. run.
  by rewrite (driver_raises d msg H).
Qed.

Lemma test_database_none (env : Environ) :
  test_database env None
  = (Ok (test_report env "⚠️  Available but not initialized" "Not Connected" []), None).
Proof.
  unfold test_database, test_report, getenv. run.
  destruct (truthy (DATABASE_URL env)), (truthy (DATABASE_NAME env)); reflexivity.
Qed.

Lemma test_database_working (env : Environ) (d : Database) :
  fault d = None →
  test_database env (Some d)
  = (Ok (test_report env "✅ Connected & Working" "Connected"
           (take 10 (map fst (map_to_list (collections d))))),
     Some d).
Proof.
  intros H. unfold test_database, test_report, getenv, list_collection_names. run.
  rewrite (driver_returns d H).
  destruct (truthy (DATABASE_URL env)), (truthy (DATABASE_NAME env)); reflexivity.
Qed.

Lemma test_database_faulting (env : Environ) (d : Database) (msg : string) :
  fault d = Some msg →
  test_database env (Some d)
  = (Ok (test_report env ("⚠️  Connected but Error: " +:+ slice_to 50 msg) "Connected" []),
     Some d).
Proof.
  intros H. unfold test_database, test_report, getenv, list_collection_names. run.
  rewrite (driver_raises d msg H).
  destruct (truthy (DATABASE_URL env)), (truthy (DATABASE_NAME env)); reflexivity.
Qed.

(** ** Reads and writes *)

(** X1: no GET request changes the store: whether [db] is [None], works
    or faults, the handle after [/], [/api/hello], [/test], [/schema],
    [/api/products] and [/api/categories] is the handle before. *)
Theorem get_requests_leave_store (env : Environ) (category : option string) (db : Handle) :
  (app.GET_root db).2 = db
  ∧ (app.GET_api_hello db).2 = db
  ∧ (app.GET_test env db).2 = db
  ∧ (app.GET_schema db).2 = db
  ∧ (app.GET_api_products category db).2 = db
  ∧ (app.GET_api_categories db).2 = db.
Proof.
  split; [done|]. split; [done|]. split; [|split; [done|split]].
  - unfold app.GET_test, route. destruct db as [d|].
    + destruct (fault d) as [msg|] eqn:Hf.
      * by rewrite (test_database_faulting env d msg Hf).
      * by rewrite (test_database_working env d Hf).
    + by rewrite test_database_none.
  - destruct db as [d|]; [|done]. destruct (fault d) as [msg|] eqn:Hf.
    + by rewrite (proj1 (proj2 (proj2 (product_handlers_do_not_catch d msg Hf category lipstick)))).
    + by rewrite route_list_products.
  - destruct db as [d|]; [|done]. destruct (fault d) as [msg|] eqn:Hf.
    + by rewrite (route_list_categories_fault d msg Hf).
    + by rewrite route_list_categories.
Qed.

(** X2: the handlers know three status codes.  Every answer to a GET
    request and to [POST /api/seed] is a 200 or a 500, and every answer
    to [POST /api/products] is a 201 or a 500, whatever the state of the
    store. *)
Theorem status_is_200_201_or_500 (env : Environ) (category : option string)
    (payload : CreateProductRequest) (db : Handle) :
  status_of (app.GET_root db).1 = 200
  ∧ status_of (app.GET_api_hello db).1 = 200
  ∧ status_of (app.GET_test env db).1 = 200
  ∧ status_of (app.GET_schema db).1 = 200
  ∧ status_of (app.GET_api_products category db).1 ∈ [200; 500]
  ∧ status_of (app.GET_api_categories db).1 ∈ [200; 500]
  ∧ status_of (app.POST_api_seed db).1 ∈ [200; 500]
  ∧ status_of (app.POST_api_products payload db).1 ∈ [201; 500].
Proof.
  split; [done|]. split; [done|]. split; [|split; [done|]].
  { unfold app.GET_test, route. destruct db as [d|].
    - destruct (fault d) as [msg|] eqn:Hf.
      + by rewrite (test_database_faulting env d msg Hf).
      + by rewrite (test_database_working env d Hf).
    - by rewrite test_database_none. }
  destruct db as [d|]; [|repeat split; simpl; set_solver].
  destruct (fault d) as [msg|] eqn:Hf.
  - destruct (product_handlers_do_not_catch d msg Hf category payload) as (_ & _ & -> & ->).
    rewrite (route_list_categories_fault d msg Hf), (route_seed_fault d msg Hf).
    repeat split; simpl; set_solver.
  - rewrite route_list_products, route_list_categories, route_create_product by done.
    split; [simpl; set_solver|]. split; [simpl; set_solver|]. split; [|simpl; set_solver].
    destruct (decide (0 < length (collection d "cosmeticproduct"))) as [Hn|Hn].
    + rewrite seed_when_stocked by done. simpl. set_solver.
    + rewrite seed_when_empty by (done || lia). simpl. set_solver.
Qed.


(** X4: the product handlers have no [except] clause: when the store
    faults, [GET /api/products] and [POST /api/products] let the
    adapter's error through, the caller receives the framework's bare
    500, and nothing is stored. *)
Theorem product_faults_go_uncaught (d : Database) (msg : string)
    (category : option string) (payload : CreateProductRequest) :
  fault d = Some msg →
  (∃ e, list_products category (Some d) = (Raise e, Some d)
        ∧ ∀ status_code detail, e ≠ HTTPException status_code detail)
  ∧ (∃ e, create_product payload (Some d) = (Raise e, Some d)
          ∧ ∀ status_code detail, e ≠ HTTPException status_code detail)
  ∧ app.GET_api_products category (Some d) = (InternalServerError, Some d)
  ∧ app.POST_api_products payload (Some d) = (InternalServerError, Some d).
Proof.
  intros H.
  destruct (product_handlers_do_not_catch d msg H category payload) as (Hl & Hc & Hgl & Hgc).
  split; [eexists; split; [exact Hl | done]|].
  split; [eexists; split; [exact Hc | done]|]. done.
Qed.

Lemma product_faults_go_uncaught_witness :
  fault faulting_db = Some connection_refused
  ∧ app.GET_api_products (Some "makeup") (Some faulting_db) = (InternalServerError, Some faulting_db)
  ∧ app.POST_api_products test_product (Some faulting_db) = (InternalServerError, Some faulting_db).
Proof.
  split; [reflexivity|].
  apply (proj2 (proj2 (product_faults_go_uncaught faulting_db connection_refused
                          (Some "makeup") test_product eq_refl))).
Defined.

(** ** The diagnostic endpoint *)

(** X5: what [GET /test] reports in each state of the store.  Without a
    database: not initialised, not connected, no collections.  On a
    working store: connected and working, with the first ten collection
    names.  On a faulting store: still "Connected", no collections, and
    the first 50 characters of the exception. *)
Theorem test_database_report (env : Environ) (db : Handle) :
  app.GET_test env db
  = (JSONResponse 200
       match db with
       | None => test_report env "⚠️  Available but not initialized" "Not Connected" []
       | Some d =>
           match fault d with
           | None =>
               test_report env "✅ Connected & Working" "Connected"
                 (take 10 (map fst (map_to_list (collections d))))
           | Some msg =>
               test_report env ("⚠️  Connected but Error: " +:+ slice_to 50 msg) "Connected" []
           end
       end,
     db).
Proof.
  unfold app.GET_test, route. destruct db as [d|].
  - destruct (fault d) as [msg|] eqn:Hf.
    + by rewrite (test_database_faulting env d msg Hf).
    + by rewrite (test_database_working env d Hf).
  - by rewrite test_database_none.
Qed.

(** X6: the object [GET /test] returns always has the same six keys; its
    [database_url] and [database_name] entries tell only whether the
    environment variable is set to a non-empty string, whatever the
    handle (the database's own name never shows); and it lists at most
    ten collections. *)
Theorem test_database_shape (env : Environ) (db : Handle) :
  ∃ (response : dict) (collections : list string),
    test_database env db = (Ok response, db)
    ∧ dom response
      = {[ "backend"; "database"; "database_url"; "database_name";
           "connection_status"; "collections" ]}
    ∧ response !! "database_url"
      = Some (VStr (if truthy (DATABASE_URL env) then "✅ Set" else "❌ Not Set"))
    ∧ response !! "database_name"
      = Some (VStr (if truthy (DATABASE_NAME env) then "✅ Set" else "❌ Not Set"))
    ∧ response !! "collections" = Some (VList collections)
    ∧ length collections ≤ 10.
Proof.
  assert (∀ database status collections,
            dom (test_report env database status collections)
            = {[ "backend"; "database"; "database_url"; "database_name";
                 "connection_status"; "collections" ]}) as Hdom.
  { intros. unfold test_report. rewrite !dom_insert_L, dom_singleton_L. set_solver. }
  destruct db as [d|].
  - destruct (fault d) as [msg|] eqn:Hf.
    + eexists _, []. rewrite (test_database_faulting env d msg Hf).
      split; [done|]. split; [apply Hdom|]. repeat split; simpl; lia.
    + eexists _, (take 10 (map fst (map_to_list (collections d)))).
      rewrite (test_database_working env d Hf).
      split; [done|]. split; [apply Hdom|]. repeat split.
      rewrite length_take. lia.
  - eexists _, []. rewrite test_database_none.
    split; [done|]. split; [apply Hdom|]. repeat split; simpl; lia.
Qed.

(** ** Creating, then reading *)

(** X7: on a working store, creating a product appends it to the
    listing and disturbs nothing else: the listing for any [category]
    parameter afterwards is the listing before, followed by the new
    record when the parameter is absent or blank or is the payload's
    category, and by nothing otherwise. *)
Theorem create_appends_to_listing (d : Database) (payload : CreateProductRequest)
    (category : option string) :
  fault d = None →
  ∃ (before : list ProductResponse) (new_id : string) (d' : Database),
    app.GET_api_products category (Some d) = (JSONResponse 200 before, Some d)
    ∧ app.POST_api_products payload (Some d)
      = (JSONResponse 201 {[ "id" := VStr new_id ]}, Some d')
    ∧ app.GET_api_products category (Some d')
      = (JSONResponse 200
           (before ++
              if decide (truthy category = false ∨ Schema.category payload = category)
              then [ {| product := payload; id := Some new_id |} ]
              else []),
         Some d').
Proof.
  intros H. eexists _, (str (next_id d)), (store d "cosmeticproduct" payload).
  split; [by apply route_list_products|]. split; [by apply route_create_product|].
  rewrite route_list_products by done. rewrite store_collection.
  destruct (truthy category) eqn:Ht.
  - destruct category as [X|]; [|done]. simpl. rewrite filter_app, map_app.
    destruct (decide (Schema.category payload = Some X)) as [HX|HX].
    + rewrite decide_True by (by right).
      by rewrite filter_cons_True, filter_nil by done.
    + rewrite decide_False by (intros [?|?]; done).
      by rewrite filter_cons_False, filter_nil by done.
  - rewrite decide_True by (by left). by rewrite map_app.
Qed.

Lemma create_appends_to_listing_witness :
  fault one_lipstick_db = None
  ∧ ∃ (before : list ProductResponse) (new_id : string) (d' : Database),
      app.GET_api_products (Some "skincare") (Some one_lipstick_db)
      = (JSONResponse 200 before, Some one_lipstick_db)
      ∧ app.POST_api_products serum (Some one_lipstick_db)
        = (JSONResponse 201 {[ "id" := VStr new_id ]}, Some d')
      ∧ app.GET_api_products (Some "skincare") (Some d')
        = (JSONResponse 200
             (before ++
                if decide (truthy (Some "skincare") = false
                           ∨ Schema.category serum = Some "skincare")
                then [ {| product := serum; id := Some new_id |} ]
                else []),
           Some d').
Proof.
  split; [reflexivity|].
  apply (create_appends_to_listing one_lipstick_db serum (Some "skincare")). reflexivity.
Defined.

(** X8: seeding after a product has been created inserts no sample: on
    a working store, once [POST /api/products] has succeeded,
    [POST /api/seed] answers "Products already exist" with the count one
    more than the collection held before, and leaves the store as the
    POST left it. *)
Theorem create_then_seed_inserts_nothing (d : Database) (payload : CreateProductRequest) :
  fault d = None →
  ∃ (new_id : string) (d' : Database),
    app.POST_api_products payload (Some d)
    = (JSONResponse 201 {[ "id" := VStr new_id ]}, Some d')
    ∧ app.POST_api_seed (Some d')
      = (JSONResponse 200
           {[ "status" := VStr "ok";
              "message" := VStr "Products already exist";
              "count" := VInt (Z.of_nat (S (length (collection d "cosmeticproduct")))) ]},
         Some d').
Proof.
  intros H. exists (str (next_id d)), (store d "cosmeticproduct" payload).
  split; [by apply route_create_product|].
  assert (length (collection (store d "cosmeticproduct" payload) "cosmeticproduct")
          = S (length (collection d "cosmeticproduct"))) as Hlen.
  { rewrite store_collection, length_app. simpl. lia. }
  rewrite seed_when_stocked; [by rewrite Hlen | done | lia].
Qed.

Lemma create_then_seed_inserts_nothing_witness :
  fault empty_db = None
  ∧ ∃ (new_id : string) (d' : Database),
      app.POST_api_products test_product (Some empty_db)
      = (JSONResponse 201 {[ "id" := VStr new_id ]}, Some d')
      ∧ app.POST_api_seed (Some d')
        = (JSONResponse 200
             {[ "status" := VStr "ok";
                "message" := VStr "Products already exist";
                "count" := VInt (Z.of_nat (S (length (collection empty_db "cosmeticproduct")))) ]},
           Some d').
Proof.
  split; [reflexivity|].
  apply (create_then_seed_inserts_nothing empty_db test_product). reflexivity.
Defined.

(** ** Seeding, then reading *)

(** X9: on a working store whose product collection is empty, after
    [POST /api/seed] the listing is the four samples in the order of the
    source, each under the identifier the store gave it, and the
    categories are "haircare", "makeup", "skincare". *)
Theorem seed_populates (d : Database) :
  fault d = None →
  collection d "cosmeticproduct" = [] →
  ∃ (d' : Database) (o1 o2 o3 o4 : ObjectId),
    (app.POST_api_seed (Some d)).2 = Some d'
    ∧ app.GET_api_products None (Some d')
      = (JSONResponse 200
           [ {| product := lipstick; id := Some (str o1) |};
             {| product := serum; id := Some (str o2) |};
             {| product := hair_oil; id := Some (str o3) |};
             {| product := sunscreen; id := Some (str o4) |} ],
         Some d')
    ∧ app.GET_api_categories (Some d')
      = (JSONResponse 200 ["haircare"; "makeup"; "skincare"], Some d').
Proof.
  intros H Hempty. exists (store_all d "cosmeticproduct" samples).
  exists (next_id d), (N.succ (next_id d)), (N.succ (N.succ (next_id d))),
    (N.succ (N.succ (N.succ (next_id d)))).
  assert (collection (store_all d "cosmeticproduct" samples) "cosmeticproduct"
          = [ {| _id := next_id d; data := lipstick |};
              {| _id := N.succ (next_id d); data := serum |};
              {| _id := N.succ (N.succ (next_id d)); data := hair_oil |};
              {| _id := N.succ (N.succ (N.succ (next_id d))); data := sunscreen |} ]) as Hcoll.
  { unfold store_all, samples. simpl. rewrite !store_collection, Hempty. reflexivity. }
  split; [by rewrite seed_when_empty by (done || by rewrite Hempty)|].
  rewrite route_list_products, route_list_categories by (by rewrite store_all_fault).
  rewrite Hcoll. split; reflexivity.
Qed.

Lemma seed_populates_witness :
  fault empty_db = None
  ∧ collection empty_db "cosmeticproduct" = []
  ∧ ∃ (d' : Database) (o1 o2 o3 o4 : ObjectId),
      (app.POST_api_seed (Some empty_db)).2 = Some d'
      ∧ app.GET_api_products None (Some d')
        = (JSONResponse 200
             [ {| product := lipstick; id := Some (str o1) |};
               {| product := serum; id := Some (str o2) |};
               {| product := hair_oil; id := Some (str o3) |};
               {| product := sunscreen; id := Some (str o4) |} ],
           Some d')
      ∧ app.GET_api_categories (Some d')
        = (JSONResponse 200 ["haircare"; "makeup"; "skincare"], Some d').
Proof.
  split; [reflexivity|]. split; [reflexivity|].
  apply (seed_populates empty_db); reflexivity.
Defined.

(** X10: the two writing handlers write to the collection
    [cosmeticproduct] only: on a working store, after
    [POST /api/products] and after [POST /api/seed] every other
    collection holds what it held, and the documents that were in
    [cosmeticproduct] are still there, first and in order. *)
Theorem writes_touch_only_cosmeticproduct (d : Database) (payload : CreateProductRequest) :
  fault d = None →
  (∃ d' : Database,
     (app.POST_api_products payload (Some d)).2 = Some d'
     ∧ (∀ c : string, c ≠ "cosmeticproduct" → collection d' c = collection d c)
     ∧ collection d "cosmeticproduct" `prefix_of` collection d' "cosmeticproduct")
  ∧ (∃ d' : Database,
       (app.POST_api_seed (Some d)).2 = Some d'
       ∧ (∀ c : string, c ≠ "cosmeticproduct" → collection d' c = collection d c)
       ∧ collection d "cosmeticproduct" `prefix_of` collection d' "cosmeticproduct").
Proof.
  intros H. split.
  - exists (store d "cosmeticproduct" payload).
    split; [by rewrite route_create_product|].
    split; [intros c Hc; by apply store_collection_ne|].
    rewrite store_collection. by apply prefix_app_r.
  - destruct (decide (0 < length (collection d "cosmeticproduct"))) as [Hn|Hn].
    + exists d. by rewrite seed_when_stocked.
    + exists (store_all d "cosmeticproduct" samples).
      split; [by rewrite seed_when_empty by (done || lia)|].
      split; [intros c Hc; by apply store_all_collection_ne|].
      assert (collection d "cosmeticproduct" = []) as ->
        by (apply length_zero_iff_nil; lia).
      apply prefix_nil.
Qed.

Lemma writes_touch_only_cosmeticproduct_witness :
  fault shop_with_orders_db = None
  ∧ ∃ d' : Database,
      (app.POST_api_products serum (Some shop_with_orders_db)).2 = Some d'
      ∧ (∀ c : string, c ≠ "cosmeticproduct" → collection d' c = collection shop_with_orders_db c)
      ∧ collection shop_with_orders_db "cosmeticproduct" `prefix_of` collection d' "cosmeticproduct".
Proof.
  split; [reflexivity|].
  apply (proj1 (writes_touch_only_cosmeticproduct shop_with_orders_db serum eq_refl)).
Defined.

(** ** Categories and listings *)

(** X11: the two reading endpoints agree: on a working store, a string
    is among the categories exactly when it is not empty and listing the
    products of that category returns at least one record; and every
    record of such a listing has that category. *)
Theorem categories_match_listing (d : Database) :
  fault d = None →
  ∃ cats : list string,
    app.GET_api_categories (Some d) = (JSONResponse 200 cats, Some d)
    ∧ ∀ c : string,
        ∃ results : list ProductResponse,
          app.GET_api_products (Some c) (Some d) = (JSONResponse 200 results, Some d)
          ∧ (c ∈ cats ↔ c ≠ "" ∧ results ≠ [])
          ∧ (c ≠ "" → ∀ r, r ∈ results → category (product r) = Some c).
Proof.
  intros H. eexists. split; [by apply route_list_categories|].
  intros c. eexists. split; [by apply route_list_products|].
  destruct (decide (c = "")) as [->|Hc].
  { split; [|done]. rewrite kept_categories_elem. split; intros [? _]; done. }
  apply truthy_Some in Hc as Ht. rewrite Ht. simpl. split.
  - rewrite kept_categories_elem, categories_of_elem. split.
    + intros (_ & doc & Hdoc & Hcat). split; [done|]. intros Hnil.
      apply fmap_nil_inv in Hnil.
      assert (doc ∈ filter (λ doc, category (data doc) = Some c)
                      (collection d "cosmeticproduct")) as Hin
        by (by apply list_elem_of_filter).
      rewrite Hnil in Hin. by apply elem_of_nil in Hin.
    + intros [_ Hne]. split; [done|].
      destruct (filter (λ doc, category (data doc) = Some c)
                  (collection d "cosmeticproduct")) as [|doc docs] eqn:Hf; [done|].
      assert (doc ∈ filter (λ doc, category (data doc) = Some c)
                      (collection d "cosmeticproduct")) as Hin
        by (rewrite Hf; apply elem_of_cons; by left).
      apply list_elem_of_filter in Hin as [Hcat Hdoc]. eauto.
  - intros _ r Hr. apply list_elem_of_fmap in Hr as (doc & -> & Hdoc).
    by apply list_elem_of_filter in Hdoc as [? _].
Qed.

Lemma categories_match_listing_witness :
  fault three_products_db = None
  ∧ ∃ cats : list string,
      app.GET_api_categories (Some three_products_db) = (JSONResponse 200 cats, Some three_products_db)
      ∧ ∀ c : string,
          ∃ results : list ProductResponse,
            app.GET_api_products (Some c) (Some three_products_db)
            = (JSONResponse 200 results, Some three_products_db)
            ∧ (c ∈ cats ↔ c ≠ "" ∧ results ≠ [])
            ∧ (c ≠ "" → ∀ r, r ∈ results → category (product r) = Some c).
Proof.
  split; [reflexivity|]. apply (categories_match_listing three_products_db). reflexivity.
Defined.

(** X12: the categories depend only on which non-empty categories are
    in use: two working stores in which the same non-empty categories
    occur answer [GET /api/categories] alike, however many products
    carry each category and in whatever order they are stored. *)
Theorem categories_depend_on_set_only (d1 d2 : Database) :
  fault d1 = None →
  fault d2 = None →
  (∀ c : string,
     c ≠ "" →
     Some c ∈ categories_of (collection d1 "cosmeticproduct")
     ↔ Some c ∈ categories_of (collection d2 "cosmeticproduct")) →
  (app.GET_api_categories (Some d1)).1 = (app.GET_api_categories (Some d2)).1.
Proof.
  intros H1 H2 Hsame. rewrite !route_list_categories by done. simpl.
  f_equal. by apply kept_categories_ext.
Qed.

Lemma categories_depend_on_set_only_witness :
  fault three_products_db = None
  ∧ fault two_products_db = None
  ∧ categories_of (collection three_products_db "cosmeticproduct")
    = [Some "skincare"; Some "makeup"; Some "skincare"]
  ∧ categories_of (collection two_products_db "cosmeticproduct")
    = [Some "makeup"; Some "skincare"]
  ∧ (app.GET_api_categories (Some three_products_db)).1
    = (app.GET_api_categories (Some two_products_db)).1.
Proof.
  split; [reflexivity|]. split; [reflexivity|]. split; [reflexivity|]. split; [reflexivity|].
  apply (categories_depend_on_set_only three_products_db two_products_db);
    [reflexivity | reflexivity |].
  intros c _.
  change (categories_of (collection three_products_db "cosmeticproduct"))
    with [Some "skincare"; Some "makeup"; Some "skincare"].
  change (categories_of (collection two_products_db "cosmeticproduct"))
    with [Some "makeup"; Some "skincare"].
  rewrite !elem_of_cons. tauto.
Defined.

(** X13: creating a product adds its category and no other: on a
    working store, the categories after [POST /api/products] are the
    categories before together with the payload's category when that is
    a non-empty string; a payload without category, or with the empty
    string, leaves the categories as they were. *)
Theorem create_adds_category (d : Database) (payload : CreateProductRequest) :
  fault d = None →
  ∃ (before after : list string) (d' : Database),
    app.GET_api_categories (Some d) = (JSONResponse 200 before, Some d)
    ∧ (app.POST_api_products payload (Some d)).2 = Some d'
    ∧ app.GET_api_categories (Some d') = (JSONResponse 200 after, Some d')
    ∧ (∀ c : string, c ∈ after ↔ c ∈ before ∨ (c ≠ "" ∧ category payload = Some c))
    ∧ (truthy (category payload) = false → after = before).
Proof.
  intros H. eexists _, _, (store d "cosmeticproduct" payload).
  split; [by apply route_list_categories|].
  split; [by rewrite route_create_product|].
  split; [by apply route_list_categories|].
  assert (∀ c, Some c ∈ categories_of (collection (store d "cosmeticproduct" payload)
                                        "cosmeticproduct")
               ↔ Some c ∈ categories_of (collection d "cosmeticproduct")
                 ∨ category payload = Some c) as Hcat.
  { intros c. rewrite store_collection. unfold categories_of.
    rewrite map_app, elem_of_app. simpl. rewrite list_elem_of_singleton.
    split; intros [?|?]; auto. }
  split.
  - intros c. rewrite !kept_categories_elem, Hcat. tauto.
  - intros Hfalsy. apply kept_categories_ext. intros c Hc. rewrite Hcat.
    split; [|by left]. intros [?|Heq]; [done|].
    rewrite Heq in Hfalsy. apply truthy_Some in Hc. congruence.
Qed.

Lemma create_adds_category_witness :
  fault one_lipstick_db = None
  ∧ ∃ (before after : list string) (d' : Database),
      app.GET_api_categories (Some one_lipstick_db) = (JSONResponse 200 before, Some one_lipstick_db)
      ∧ (app.POST_api_products serum (Some one_lipstick_db)).2 = Some d'
      ∧ app.GET_api_categories (Some d') = (JSONResponse 200 after, Some d')
      ∧ (∀ c : string, c ∈ after ↔ c ∈ before ∨ (c ≠ "" ∧ category serum = Some c))
      ∧ (truthy (category serum) = false → after = before).
Proof.
  split; [reflexivity|]. apply (create_adds_category one_lipstick_db serum). reflexivity.
Defined.
